(** * End-of-turn analyzer contract: [pipecat/audio/turn/base_turn_analyzer.py]

  A shallow embedding of the [EndOfTurnState] enumeration and of the
    [BaseTurnAnalyzer] abstract base class, followed by the properties of
  sample-rate negotiation, of the enumeration and of the reset contract.

  Python's [int] is unbounded, so rates are [Z]; [Optional[int]] is
    [option Z]; [bytes] is [list Byte.byte].  An object is a record of its
  attributes and a method is a function from the object (and its
  arguments) to the updated object. *)

From Stdlib Require Import ZArith List Lia.
From Stdlib Require Strings.Byte.
Import ListNotations.
Local Open Scope Z_scope.

Set Implicit Arguments.

(** ** The fragment of Python's value semantics the module relies on *)

Module Py.

(** [bool(x)] for [x : Optional[int]]: [None] and [0] are falsy, every
    other integer is truthy. *)
Definition truthy (x : option Z) : bool :=
  match x with
  | None => false
  | Some n => negb (n =? 0)
  end.

(** [x or y] for [x : Optional[int]] and [y : int]: the left operand when it
    is truthy, otherwise the right one.  A truthy left operand is never
    [None], so the result is an [int]. *)
Definition or_ (x : option Z) (y : Z) : Z :=
  match x with
  | Some n => if truthy x then n else y
  | None => y
  end.

End Py.

(** ** [class EndOfTurnState(Enum)] *)

Inductive EndOfTurnState : Set :=
| COMPLETE
| INCOMPLETE.

Module EndOfTurnStateEnum.

(** The [.value] of a member. *)
Definition value (s : EndOfTurnState) : Z :=
  match s with
  | COMPLETE => 1
  | INCOMPLETE => 2
  end.

(** [list(EndOfTurnState)]: the members in definition order. *)
Definition members : list EndOfTurnState := [COMPLETE; INCOMPLETE].

(** [EndOfTurnState(v)]: lookup by value; [None] stands for the
    [ValueError] raised on a value that belongs to no member. *)
Definition of_value (v : Z) : option EndOfTurnState :=
  find (fun s => value s =? v) members.

End EndOfTurnStateEnum.

(** ** [class BaseTurnAnalyzer(ABC)] *)

(** The attributes of an analyzer object.  The base class owns
    [_init_sample_rate] and [_sample_rate]; [subclass_state] carries whatever
    attributes a concrete analyzer adds in its own [__init__]. *)
Record BaseTurnAnalyzer (Sub : Type) : Type := mkBaseTurnAnalyzer {
  _init_sample_rate : option Z;
  _sample_rate : Z;
  subclass_state : Sub
}.

Section BaseClass.

Variable Sub : Type.

(** [__init__(self, *, sample_rate=None)], reached through
    [super().__init__] from the concrete class that contributes [sub]. *)
Definition __init__ (sample_rate : option Z) (sub : Sub) : BaseTurnAnalyzer Sub :=
  {| _init_sample_rate := sample_rate;
     _sample_rate := 0;
     subclass_state := sub |}.

(** The [sample_rate] property. *)
Definition sample_rate (self : BaseTurnAnalyzer Sub) : Z :=
  _sample_rate self.

(** [set_sample_rate(self, sample_rate)]:
    [self._sample_rate = self._init_sample_rate or sample_rate]. *)
Definition set_sample_rate (self : BaseTurnAnalyzer Sub) (rate : Z)
  : BaseTurnAnalyzer Sub :=
  {| _init_sample_rate := _init_sample_rate self;
     _sample_rate := Py.or_ (_init_sample_rate self) rate;
     subclass_state := subclass_state self |}.

(** A run of negotiation calls, oldest first. *)
Definition set_sample_rates (self : BaseTurnAnalyzer Sub) (rates : list Z)
  : BaseTurnAnalyzer Sub :=
  fold_left set_sample_rate rates self.

(** The value of the [sample_rate] property observed after each call of a
    run of negotiation calls. *)
Fixpoint sample_rate_trace (self : BaseTurnAnalyzer Sub) (rates : list Z)
  : list Z :=
  match rates with
  | [] => []
  | r :: rest =>
      let self' := set_sample_rate self r in
      sample_rate self' :: sample_rate_trace self' rest
  end.

End BaseClass.

(** ** Values handed back at run time

    Python does not check a return annotation, so what a method hands back
    is a run-time value of whatever kind its body produces.  These are the
    kinds the module's signatures and bodies mention: [None] (what [pass]
    returns), [bool], [int], a member of [EndOfTurnState], the opaque
    parameter and metrics objects, and a two-item tuple. *)
Inductive PyValue (Params MetricsData : Type) : Type :=
| PyNone
| PyBool (b : bool)
| PyInt (n : Z)
| PyState (s : EndOfTurnState)
| PyParams (p : Params)
| PyMetrics (m : MetricsData)
| PyTuple2 (a b : PyValue Params MetricsData).

Arguments PyNone {Params MetricsData}.
Arguments PyBool {Params MetricsData} b.
Arguments PyInt {Params MetricsData} n.
Arguments PyState {Params MetricsData} s.
Arguments PyParams {Params MetricsData} p.
Arguments PyMetrics {Params MetricsData} m.
Arguments PyTuple2 {Params MetricsData} a b.

Section Annotations.

Variables Params MetricsData : Type.

(** [isinstance(v, EndOfTurnState)]: the annotation of [append_audio]. *)
Definition conforms_state (v : PyValue Params MetricsData) : bool :=
  match v with
  | PyState _ => true
  | _ => false
  end.

(** [Optional[MetricsData]]. *)
Definition conforms_optional_metrics (v : PyValue Params MetricsData) : bool :=
  match v with
  | PyNone | PyMetrics _ => true
  | _ => false
  end.

(** [Tuple[EndOfTurnState, Optional[MetricsData]]]: the annotation of
    [analyze_end_of_turn]. *)
Definition conforms_judgment (v : PyValue Params MetricsData) : bool :=
  match v with
  | PyTuple2 a b => conforms_state a && conforms_optional_metrics b
  | _ => false
  end.

End Annotations.

(** The abstract members, as a concrete class overrides them.  The
    annotations ([-> bool], [-> EndOfTurnState],
    [-> Tuple[EndOfTurnState, Optional[MetricsData]]]) are not enforced, so
    each member hands back a run-time value; the methods also hand back the
    object as they leave it.  The coroutine [analyze_end_of_turn] is
    represented by what it yields when awaited.  [Params] and [MetricsData]
    are opaque ([MetricsData] is imported from [pipecat.metrics.metrics]). *)
Class TurnAnalyzer (Sub Params MetricsData : Type) : Type := {
  speech_triggered : BaseTurnAnalyzer Sub -> PyValue Params MetricsData;
  params : BaseTurnAnalyzer Sub -> PyValue Params MetricsData;
  append_audio :
    BaseTurnAnalyzer Sub -> list Byte.byte -> bool ->
    BaseTurnAnalyzer Sub * PyValue Params MetricsData;
  analyze_end_of_turn :
    BaseTurnAnalyzer Sub ->
    BaseTurnAnalyzer Sub * PyValue Params MetricsData;
  clear : BaseTurnAnalyzer Sub -> BaseTurnAnalyzer Sub * PyValue Params MetricsData
}.

(** The bodies the base class itself gives the five members: each is [pass],
    which leaves the object as it is and returns [None].  A concrete class
    whose overrides delegate to [super()] runs exactly these. *)
Definition base_bodies (Sub Params MetricsData : Type)
  : TurnAnalyzer Sub Params MetricsData :=
  {| speech_triggered := fun _ => PyNone;
     params := fun _ => PyNone;
     append_audio := fun self _ _ => (self, PyNone);
     analyze_end_of_turn := fun self => (self, PyNone);
     clear := fun self => (self, PyNone) |}.

(** ** The reset contract of a concrete analyzer

    [clear], [speech_triggered] and [append_audio] are abstract in the base
    class, and no concrete analyzer is part of this module.  The contract the
    concrete ones follow is taken from the specification, for an internal
    accumulation state of any shape. *)

Module SpecModel.

Section Reset.

Variable Internal : Type.
(** The accumulation state right after construction. *)
Variable initial : Internal.
(** How the state answers the speech-triggered query. *)
Variable triggered : Internal -> bool.

(** Modelled from the spec: the concrete [clear] (abstract in the source,
    body [pass]).  It takes all internal accumulation back to the
    post-construction condition and keeps the resolved sample rate and the
    fixed configuration. *)
Definition clear (self : BaseTurnAnalyzer Internal) : BaseTurnAnalyzer Internal :=
  {| _init_sample_rate := _init_sample_rate self;
     _sample_rate := _sample_rate self;
     subclass_state := initial |}.

(** Modelled from the spec: the concrete [speech_triggered] property
    (abstract in the source), "a read-only, side-effect-free query" over the
    internal accumulation. *)
Definition speech_triggered (self : BaseTurnAnalyzer Internal) : bool :=
  triggered (subclass_state self).

End Reset.

(** Modelled from the spec: the accumulation of the smallest analyzer that
    plays the scenario of the specification (silence chunks leave the flag
    down, one speech chunk raises it).  The source has no concrete
    analyzer. *)
Record Accumulation : Type := mkAccumulation {
  audio_buffer : list Byte.byte;
  speech_seen : bool
}.

Definition fresh : Accumulation :=
  {| audio_buffer := []; speech_seen := false |}.

Definition ingest (acc : Accumulation) (buffer : list Byte.byte) (is_speech : bool)
  : Accumulation :=
  {| audio_buffer := audio_buffer acc ++ buffer;
     speech_seen := speech_seen acc || is_speech |}.

(** A chunk handed to the analyzer: only the accumulation moves. *)
Definition feed (self : BaseTurnAnalyzer Accumulation)
  (buffer : list Byte.byte) (is_speech : bool) : BaseTurnAnalyzer Accumulation :=
  {| _init_sample_rate := _init_sample_rate self;
     _sample_rate := _sample_rate self;
     subclass_state := ingest (subclass_state self) buffer is_speech |}.

End SpecModel.

(** Modelled from the spec: the five members of the smallest analyzer, over
    the accumulation of [SpecModel] (the source has no concrete analyzer).
    The fast path ingests the chunk and answers [INCOMPLETE]; the judgment
    answers [COMPLETE] once speech has been seen and produces no metrics;
    [clear] is the reset of [SpecModel]. *)
Definition smallest_analyzer : TurnAnalyzer SpecModel.Accumulation unit unit :=
  {| speech_triggered := fun self =>
       PyBool (SpecModel.speech_seen (subclass_state self));
     params := fun _ => PyParams tt;
     append_audio := fun self buffer is_speech =>
       (SpecModel.feed self buffer is_speech, PyState INCOMPLETE);
     analyze_end_of_turn := fun self =>
       (self,
        PyTuple2
          (PyState (if SpecModel.speech_seen (subclass_state self)
                    then COMPLETE else INCOMPLETE))
          PyNone);
     clear := fun self => (SpecModel.clear SpecModel.fresh self, PyNone) |}.

(** * Properties *)

(** ** Python's [or] on an optional rate *)

Lemma or_unfixed (r : Z) : Py.or_ None r = r.
Proof. reflexivity. Qed.

Lemma or_zero (r : Z) : Py.or_ (Some 0) r = r.
Proof. reflexivity. Qed.

Lemma or_fixed (v r : Z) : v <> 0 -> Py.or_ (Some v) r = v.
Proof.
  intros Hv. unfold Py.or_, Py.truthy.
  destruct (Z.eqb_spec v 0) as [E | _]; [contradiction | reflexivity].
Qed.

Lemma or_falsy (x : option Z) (r : Z) : Py.truthy x = false -> Py.or_ x r = r.
Proof.
  destruct x as [v |]; simpl; [intros -> | ]; reflexivity.
Qed.

Lemma or_cases (x : option Z) (r : Z) :
  Py.or_ x r = match x with
               | Some v => if v =? 0 then r else v
               | None => r
               end.
Proof.
  destruct x as [v |]; simpl; [ | reflexivity].
  now destruct (v =? 0).
Qed.

(** The default of [last] is only read on the empty list. *)
Lemma last_nonempty_default {A : Type} (l : list A) : forall (x d d' : A),
  last (x :: l) d = last (x :: l) d'.
Proof.
  induction l as [| y l IH]; intros x d d'; [reflexivity | ].
  change (last (y :: l) d = last (y :: l) d'). apply IH.
Qed.

(** ** Negotiation on an analyzer *)

Section Negotiation.

Variable Sub : Type.
Implicit Types (self : BaseTurnAnalyzer Sub) (r v : Z) (rates : list Z).

Lemma set_sample_rate_keeps_init self r :
  _init_sample_rate (set_sample_rate self r) = _init_sample_rate self.
Proof. reflexivity. Qed.

Lemma set_sample_rate_keeps_subclass self r :
  subclass_state (set_sample_rate self r) = subclass_state self.
Proof. reflexivity. Qed.

Lemma set_sample_rates_keeps_init rates : forall self,
  _init_sample_rate (set_sample_rates self rates) = _init_sample_rate self.
Proof.
  induction rates as [| r rates IH]; intros self; simpl; [reflexivity | ].
  unfold set_sample_rates in IH |- *. simpl. now rewrite IH.
Qed.

Lemma set_sample_rates_keeps_subclass rates : forall self,
  subclass_state (set_sample_rates self rates) = subclass_state self.
Proof.
  induction rates as [| r rates IH]; intros self; simpl; [reflexivity | ].
  unfold set_sample_rates in IH |- *. simpl. now rewrite IH.
Qed.

Lemma sample_rate_fixed_nonzero self v r :
  _init_sample_rate self = Some v -> v <> 0 ->
  sample_rate (set_sample_rate self r) = v.
Proof.
  intros Hinit Hv. unfold sample_rate, set_sample_rate; simpl.
  rewrite Hinit. now apply or_fixed.
Qed.

Lemma sample_rate_falsy self r :
  Py.truthy (_init_sample_rate self) = false ->
  sample_rate (set_sample_rate self r) = r.
Proof.
  intros Hf. unfold sample_rate, set_sample_rate; simpl. now apply or_falsy.
Qed.

(** The last element of the trace is the rate in effect after the run. *)
Lemma trace_last rates : forall self,
  sample_rate (set_sample_rates self rates)
  = last (sample_rate_trace self rates) (sample_rate self).
Proof.
  induction rates as [| r rates IH]; intros self; [reflexivity | ].
  change (set_sample_rates self (r :: rates))
    with (set_sample_rates (set_sample_rate self r) rates).
  rewrite IH. simpl.
  destruct (sample_rate_trace (set_sample_rate self r) rates) as [| x l];
    [reflexivity | apply last_nonempty_default].
Qed.

(** With a falsy construction-time rate each call takes the proposal. *)
Lemma trace_falsy rates : forall self,
  Py.truthy (_init_sample_rate self) = false ->
  sample_rate_trace self rates = rates.
Proof.
  induction rates as [| r rates IH]; intros self Hf; [reflexivity | ].
  cbn [sample_rate_trace]. rewrite sample_rate_falsy by assumption.
  f_equal. apply IH. now rewrite set_sample_rate_keeps_init.
Qed.

(** With a fixed non-zero rate each call resolves to it. *)
Lemma trace_fixed_nonzero rates : forall self v,
  _init_sample_rate self = Some v -> v <> 0 ->
  sample_rate_trace self rates = repeat v (length rates).
Proof.
  induction rates as [| r rates IH]; intros self v Hinit Hv; [reflexivity | ].
  cbn [sample_rate_trace length repeat].
  rewrite (sample_rate_fixed_nonzero self r Hinit Hv).
  f_equal. apply IH; [ | assumption].
  now rewrite set_sample_rate_keeps_init.
Qed.

Lemma last_rate_unfixed rates self :
  _init_sample_rate self = None ->
  sample_rate (set_sample_rates self rates) = last rates (sample_rate self).
Proof.
  intros Hinit. rewrite trace_last, trace_falsy; [reflexivity | ].
  now rewrite Hinit.
Qed.

Lemma last_rate_fixed_nonzero rates self v :
  _init_sample_rate self = Some v -> v <> 0 -> rates <> [] ->
  sample_rate (set_sample_rates self rates) = v.
Proof.
  intros Hinit Hv Hne.
  rewrite trace_last, (trace_fixed_nonzero rates self Hinit Hv).
  destruct rates as [| r rates]; [contradiction | ].
  clear. simpl length. generalize (length rates) as n.
  induction n as [| n IH]; [reflexivity | ].
  change (repeat v (S (S n))) with (v :: repeat v (S n)).
  exact IH.
Qed.

End Negotiation.

(** ** Sample-rate negotiation *)

(** C1 (fails in the code at a fixed rate of zero).  The claim says that an
    analyzer constructed with a fixed rate keeps that rate whatever is
    proposed.  The fixed rate is selected with [or], so for an analyzer
    constructed with [sample_rate=0] the call [set_sample_rate(16000)] leaves
    the accessor at [16000], not at the fixed [0]; hence the statement
    "for every fixed rate and every proposal the accessor returns the fixed
    rate" does not hold of the code.  For every non-zero fixed rate it does
    hold: see [sample_rate_fixed_nonzero]. *)
Theorem fixed_zero_rate_not_kept :
  sample_rate (set_sample_rate (__init__ (Some 0) tt) 16000) = 16000 /\
  ~ (forall fixed r : Z,
        sample_rate (set_sample_rate (__init__ (Some fixed) tt) r) = fixed).
Proof.
  split; [reflexivity | ].
  intros H. specialize (H 0 16000). discriminate H.
Qed.

(** C2.  For an analyzer without a fixed construction-time rate,
    [set_sample_rate(proposedRate)] makes [proposedRate] the effective rate,
    and the [sample_rate] accessor returns it. *)
Theorem unfixed_rate_takes_proposal (Sub : Type) (self : BaseTurnAnalyzer Sub) (r : Z) :
  _init_sample_rate self = None ->
  _sample_rate (set_sample_rate self r) = r /\
  sample_rate (set_sample_rate self r) = r.
Proof.
  intros Hinit. unfold sample_rate, set_sample_rate; simpl.
  rewrite Hinit. split; apply or_unfixed.
Qed.

Lemma unfixed_rate_takes_proposal_witness :
  _init_sample_rate (__init__ None tt) = None /\
  _sample_rate (set_sample_rate (__init__ None tt) 16000) = 16000 /\
  sample_rate (set_sample_rate (__init__ None tt) 16000) = 16000.
Proof.
  split; [reflexivity | ].
  apply (@unfixed_rate_takes_proposal unit (__init__ None tt) 16000).
  reflexivity.
Defined.

(** C3.  Whether or not a rate was fixed at construction, the [sample_rate]
    accessor returns zero on the freshly constructed analyzer, and after a
    [set_sample_rate] call it returns the value the call resolved, that is
    [_init_sample_rate or proposedRate]: the proposal when nothing (or zero)
    was fixed, the fixed rate otherwise. *)
Theorem sample_rate_zero_until_negotiated (Sub : Type) (fixed : option Z) (sub : Sub) :
  sample_rate (__init__ fixed sub) = 0 /\
  (forall r : Z,
      sample_rate (set_sample_rate (__init__ fixed sub) r) = Py.or_ fixed r) /\
  (forall (self : BaseTurnAnalyzer Sub) (r : Z),
      sample_rate (set_sample_rate self r)
      = match _init_sample_rate self with
        | Some v => if v =? 0 then r else v
        | None => r
        end).
Proof.
  split; [reflexivity | split].
  - reflexivity.
  - intros self r. unfold sample_rate, set_sample_rate; simpl.
    apply or_cases.
Qed.

(** C4.  [set_sample_rate] is idempotent in its input: a second call with the
    same rate leaves the analyzer, and so the effective rate, as the first
    call left it.  In particular, on an analyzer without a fixed rate,
    [set_sample_rate(16000)] called twice resolves to [16000] both times. *)
Theorem set_sample_rate_idempotent :
  (forall (Sub : Type) (self : BaseTurnAnalyzer Sub) (r : Z),
      set_sample_rate (set_sample_rate self r) r = set_sample_rate self r /\
      sample_rate (set_sample_rate (set_sample_rate self r) r)
      = sample_rate (set_sample_rate self r)) /\
  (forall (Sub : Type) (sub : Sub),
      sample_rate (set_sample_rate (__init__ None sub) 16000) = 16000 /\
      sample_rate (set_sample_rate (set_sample_rate (__init__ None sub) 16000) 16000)
      = 16000).
Proof.
  split.
  - intros Sub self r. split; reflexivity.
  - intros Sub sub. split; reflexivity.
Qed.

(** C5 (fails in the code at a fixed rate of zero; same defect as C1).  The
    claim says that with a fixed construction-time rate the effective rate is
    the fixed one after every call.  On an analyzer constructed with
    [sample_rate=0] the calls [set_sample_rate(16000)] and then
    [set_sample_rate(8000)] leave the accessor at [16000] and then [8000],
    never at the fixed [0].  The other half of the claim, and the fixed half
    for non-zero rates, hold: see [last_rate_unfixed], [trace_falsy],
    [trace_fixed_nonzero] and [last_rate_fixed_nonzero]. *)
Theorem fixed_zero_rate_follows_proposals :
  sample_rate_trace (__init__ (Some 0) tt) [16000; 8000] = [16000; 8000] /\
  sample_rate (set_sample_rates (__init__ (Some 0) tt) [16000; 8000]) = 8000 /\
  ~ (forall (fixed : Z) (rates : list Z),
        Forall (eq fixed) (sample_rate_trace (__init__ (Some fixed) tt) rates)).
Proof.
  split; [reflexivity | split; [reflexivity | ]].
  intros H. specialize (H 0 [16000]). inversion H as [| x l Hx Hl]. discriminate Hx.
Qed.

(** C6.  [set_sample_rate] writes the effective-rate field and nothing else:
    the construction-time rate and the attributes of the concrete class are
    as before the call, the result is the old object with only
    [_sample_rate] replaced, and over any run of calls the construction-time
    rate stays the one given to the constructor. *)
Theorem set_sample_rate_writes_only_sample_rate (Sub : Type) (self : BaseTurnAnalyzer Sub) (r : Z) :
  _init_sample_rate (set_sample_rate self r) = _init_sample_rate self /\
  subclass_state (set_sample_rate self r) = subclass_state self /\
  set_sample_rate self r
  = mkBaseTurnAnalyzer (_init_sample_rate self)
      (sample_rate (set_sample_rate self r)) (subclass_state self) /\
  (forall rates : list Z,
      _init_sample_rate (set_sample_rates self rates) = _init_sample_rate self /\
      subclass_state (set_sample_rates self rates) = subclass_state self) /\
  (forall (fixed : option Z) (sub : Sub) (rates : list Z),
      _init_sample_rate (set_sample_rates (__init__ fixed sub) rates) = fixed).
Proof.
  repeat split.
  - apply set_sample_rates_keeps_init.
  - apply set_sample_rates_keeps_subclass.
  - intros fixed sub rates. now rewrite set_sample_rates_keeps_init.
Qed.

(** ** The enumeration *)

Lemma value_injective (s t : EndOfTurnState) :
  EndOfTurnStateEnum.value s = EndOfTurnStateEnum.value t -> s = t.
Proof. destruct s, t; simpl; intros H; (reflexivity || discriminate H). Qed.

Lemma of_value_value (s : EndOfTurnState) :
  EndOfTurnStateEnum.of_value (EndOfTurnStateEnum.value s) = Some s.
Proof. destruct s; reflexivity. Qed.

Lemma of_value_defined (v : Z) :
  EndOfTurnStateEnum.of_value v <> None <-> v = 1 \/ v = 2.
Proof.
  unfold EndOfTurnStateEnum.of_value, EndOfTurnStateEnum.members.
  cbn [find EndOfTurnStateEnum.value].
  destruct (Z.eqb_spec 1 v) as [<- | N1]; [split; [auto | discriminate] | ].
  destruct (Z.eqb_spec 2 v) as [<- | N2]; [split; [auto | discriminate] | ].
  split; [intros H; exfalso; apply H; reflexivity | intros [-> | ->]; contradiction].
Qed.

Lemma state_is_member (s : EndOfTurnState) : In s EndOfTurnStateEnum.members.
Proof. destruct s; simpl; auto. Qed.

Lemma conforms_state_inv (Params MetricsData : Type) (v : PyValue Params MetricsData) :
  conforms_state v = true -> exists s : EndOfTurnState, v = PyState s.
Proof.
  destruct v; simpl; intros H; try discriminate H. now eexists.
Qed.




(** ** Reset *)

(** C8.  (On the reset contract as the specification words it; [clear] is
    abstract in the source.)  Whatever has been ingested, [clear] leaves the
    resolved effective sample rate and the construction-time rate as they
    were, and takes the accumulation back to its post-construction condition,
    so that [speech_triggered] is false again. *)
Theorem clear_keeps_rate_and_resets
  (Internal : Type) (initial : Internal) (triggered : Internal -> bool)
  (self : BaseTurnAnalyzer Internal) :
  triggered initial = false ->
  sample_rate (SpecModel.clear initial self) = sample_rate self /\
  _init_sample_rate (SpecModel.clear initial self) = _init_sample_rate self /\
  subclass_state (SpecModel.clear initial self) = initial /\
  SpecModel.speech_triggered triggered (SpecModel.clear initial self) = false.
Proof.
  intros Hinitial. repeat split. exact Hinitial.
Qed.

Lemma clear_keeps_rate_and_resets_witness :
  let negotiated := set_sample_rate (__init__ None SpecModel.fresh) 16000 in
  let silent := SpecModel.feed (SpecModel.feed (SpecModel.feed negotiated [] false) [] false) [] false in
  let spoken := SpecModel.feed silent [Byte.x01] true in
  SpecModel.speech_seen SpecModel.fresh = false /\
  SpecModel.speech_triggered SpecModel.speech_seen silent = false /\
  SpecModel.speech_triggered SpecModel.speech_seen spoken = true /\
  sample_rate (SpecModel.clear SpecModel.fresh spoken) = 16000 /\
  SpecModel.speech_triggered SpecModel.speech_seen
    (SpecModel.clear SpecModel.fresh spoken) = false.
Proof.
  intros negotiated silent spoken.
  split; [reflexivity | split; [reflexivity | split; [reflexivity | ]]].
  destruct (@clear_keeps_rate_and_resets SpecModel.Accumulation SpecModel.fresh
              SpecModel.speech_seen spoken eq_refl) as [Hrate [_ [_ Hflag]]].
  split; [rewrite Hrate; reflexivity | exact Hflag].
Defined.

(** ** Edge cases of the truthiness test *)

(** C9.  A fixed rate of zero is falsy, so for an analyzer constructed with
    [sample_rate=0] the call [set_sample_rate(proposedRate)] resolves to
    [proposedRate], and over any run of calls the analyzer reports the same
    rates as one constructed without a fixed rate. *)
Theorem fixed_zero_behaves_as_unfixed (Sub : Type) (sub : Sub) :
  Py.truthy (Some 0) = false /\
  (forall r : Z, sample_rate (set_sample_rate (__init__ (Some 0) sub) r) = r) /\
  (forall rates : list Z,
      sample_rate_trace (__init__ (Some 0) sub) rates
      = sample_rate_trace (__init__ None sub) rates /\
      sample_rate (set_sample_rates (__init__ (Some 0) sub) rates)
      = sample_rate (set_sample_rates (__init__ None sub) rates)).
Proof.
  split; [reflexivity | split].
  - intros r. reflexivity.
  - intros rates. rewrite !trace_last, !trace_falsy by reflexivity.
    split; reflexivity.
Qed.

(** C10.  No validation is applied to the proposal: on an analyzer without a
    fixed rate every integer, zero and negatives included, is taken as the
    effective rate, and after [set_sample_rate(0)] the analyzer is the
    freshly constructed one again, so the accessor's [0] cannot be told from
    "not yet negotiated". *)
Theorem zero_proposal_accepted_unvalidated (Sub : Type) (sub : Sub) :
  sample_rate (set_sample_rate (__init__ None sub) 0)
  = sample_rate (__init__ None sub) /\
  set_sample_rate (__init__ None sub) 0 = __init__ None sub /\
  (forall r : Z, sample_rate (set_sample_rate (__init__ None sub) r) = r) /\
  sample_rate (set_sample_rate (__init__ None sub) (-44100)) = -44100.
Proof.
  repeat split.
Qed.

(** * Further properties of the module *)

(** ** Runs of negotiation calls *)

(** X1.  When the construction-time rate is a non-zero integer, every call
    of a run of [set_sample_rate] calls leaves the accessor at that rate,
    whatever is proposed, and so does the whole run when it is not empty. *)
Theorem fixed_nonzero_rate_wins
  (Sub : Type) (self : BaseTurnAnalyzer Sub) (v : Z) (rates : list Z) :
  _init_sample_rate self = Some v -> v <> 0 ->
  sample_rate_trace self rates = repeat v (length rates) /\
  (rates <> [] -> sample_rate (set_sample_rates self rates) = v).
Proof.
  intros Hinit Hv. split.
  - now apply trace_fixed_nonzero.
  - intros Hne. now apply last_rate_fixed_nonzero.
Qed.

Lemma fixed_nonzero_rate_wins_witness :
  _init_sample_rate (__init__ (Some 8000) tt) = Some 8000 /\ 8000 <> 0 /\
  sample_rate_trace (__init__ (Some 8000) tt) [16000; 0; 44100]
  = [8000; 8000; 8000] /\
  sample_rate (set_sample_rates (__init__ (Some 8000) tt) [16000; 0; 44100]) = 8000.
Proof.
  split; [reflexivity | split; [discriminate | ]].
  destruct (@fixed_nonzero_rate_wins unit (__init__ (Some 8000) tt) 8000
              [16000; 0; 44100] eq_refl ltac:(discriminate)) as [Htrace Hlast].
  split; [exact Htrace | apply Hlast; discriminate].
Defined.

(** X2.  When no rate was fixed at construction, the accessor follows the
    proposals one by one over a run of [set_sample_rate] calls, and after the
    run it holds the last proposal (the rate it held before, when the run is
    empty). *)
Theorem unfixed_last_proposal_wins
  (Sub : Type) (self : BaseTurnAnalyzer Sub) (rates : list Z) :
  _init_sample_rate self = None ->
  sample_rate_trace self rates = rates /\
  sample_rate (set_sample_rates self rates) = last rates (sample_rate self).
Proof.
  intros Hinit. split.
  - apply trace_falsy. now rewrite Hinit.
  - now apply last_rate_unfixed.
Qed.

Lemma unfixed_last_proposal_wins_witness :
  _init_sample_rate (__init__ None tt) = None /\
  sample_rate_trace (__init__ None tt) [16000; 0; 44100] = [16000; 0; 44100] /\
  sample_rate (set_sample_rates (__init__ None tt) [16000; 0; 44100]) = 44100.
Proof.
  split; [reflexivity | ].
  exact (@unfixed_last_proposal_wins unit (__init__ None tt) [16000; 0; 44100] eq_refl).
Defined.

(** X3.  Negotiation keeps no history: a run of calls that ends with
    [set_sample_rate(r)] leaves the whole object as that last call alone
    would, and the outcome of a call does not depend on the rate in effect
    before it. *)
Theorem run_collapses_to_last_call
  (Sub : Type) (self : BaseTurnAnalyzer Sub) (rates : list Z) (r : Z) :
  set_sample_rates self (rates ++ [r]) = set_sample_rate self r /\
  (forall other : BaseTurnAnalyzer Sub,
      _init_sample_rate other = _init_sample_rate self ->
      subclass_state other = subclass_state self ->
      set_sample_rate other r = set_sample_rate self r).
Proof.
  assert (Hforget : forall other : BaseTurnAnalyzer Sub,
             _init_sample_rate other = _init_sample_rate self ->
             subclass_state other = subclass_state self ->
             set_sample_rate other r = set_sample_rate self r).
  { intros other Hinit Hsub. unfold set_sample_rate. now rewrite Hinit, Hsub. }
  split; [ | exact Hforget].
  unfold set_sample_rates. rewrite fold_left_app. simpl.
  apply Hforget.
  - apply set_sample_rates_keeps_init.
  - apply set_sample_rates_keeps_subclass.
Qed.

(** ** What a single call can and cannot produce *)

(** X4.  [set_sample_rate] ignores the proposal exactly when the
    construction-time rate is truthy, that is a non-zero integer: the
    accessor is the same after any two proposals if and only if such a rate
    was given. *)
Theorem proposal_ignored_iff_fixed_truthy (Sub : Type) (self : BaseTurnAnalyzer Sub) :
  (forall r1 r2 : Z,
      sample_rate (set_sample_rate self r1) = sample_rate (set_sample_rate self r2))
  <-> Py.truthy (_init_sample_rate self) = true.
Proof.
  split.
  - intros Hsame.
    destruct (Py.truthy (_init_sample_rate self)) eqn:Ht; [reflexivity | ].
    specialize (Hsame 0 1).
    rewrite !sample_rate_falsy in Hsame by assumption. discriminate Hsame.
  - intros Ht r1 r2.
    destruct (_init_sample_rate self) as [v |] eqn:Hinit; [ | discriminate Ht].
    assert (Hv : v <> 0).
    { intros ->. discriminate Ht. }
    now rewrite !(sample_rate_fixed_nonzero self _ Hinit Hv).
Qed.

(** X5.  After a call the accessor is zero, the value it has before any
    negotiation, only when zero was proposed and the construction-time rate
    is absent or zero; a non-zero proposal always leaves a non-zero rate. *)
Theorem negotiated_rate_zero_iff (Sub : Type) (self : BaseTurnAnalyzer Sub) (r : Z) :
  (sample_rate (set_sample_rate self r) = 0
   <-> Py.truthy (_init_sample_rate self) = false /\ r = 0) /\
  (r = 0 \/ sample_rate (set_sample_rate self r) <> 0).
Proof.
  assert (Hiff : sample_rate (set_sample_rate self r) = 0
                 <-> Py.truthy (_init_sample_rate self) = false /\ r = 0).
  { unfold sample_rate, set_sample_rate; simpl. rewrite or_cases.
    destruct (_init_sample_rate self) as [v |]; simpl.
    - destruct (Z.eqb_spec v 0) as [-> | Hv]; simpl.
      + split; [intros ->; split; reflexivity | intros [_ Hr]; exact Hr].
      + split; [intros E; contradiction | intros [Hf _]; discriminate Hf].
    - split; [intros ->; split; reflexivity | intros [_ Hr]; exact Hr]. }
  split; [exact Hiff | ].
  destruct (Z.eq_dec r 0) as [Hr | Hr]; [left; exact Hr | right].
  intros E. apply Hiff in E. destruct E as [_ E]. contradiction.
Qed.

(** X6.  Rates are not validated, yet signs are kept: when the proposal is
    positive and the construction-time rate, if one was given, is not
    negative, the rate in effect after the call is positive. *)
Theorem positive_proposal_gives_positive_rate
  (Sub : Type) (self : BaseTurnAnalyzer Sub) (r : Z) :
  0 < r ->
  (forall v : Z, _init_sample_rate self = Some v -> 0 <= v) ->
  0 < sample_rate (set_sample_rate self r).
Proof.
  intros Hr Hfixed. unfold sample_rate, set_sample_rate; simpl.
  rewrite or_cases.
  destruct (_init_sample_rate self) as [v |]; [ | exact Hr].
  specialize (Hfixed v eq_refl).
  destruct (Z.eqb_spec v 0) as [_ | Hv]; [exact Hr | lia].
Qed.

Lemma positive_proposal_gives_positive_rate_witness :
  0 < 16000 /\
  (forall v : Z, _init_sample_rate (__init__ (Some 0) tt) = Some v -> 0 <= v) /\
  0 < sample_rate (set_sample_rate (__init__ (Some 0) tt) 16000).
Proof.
  assert (Hfixed : forall v : Z,
             _init_sample_rate (__init__ (Some 0) tt) = Some v -> 0 <= v).
  { intros v E. injection E as <-. apply Z.le_refl. }
  split; [reflexivity | split; [exact Hfixed | ]].
  exact (@positive_proposal_gives_positive_rate unit (__init__ (Some 0) tt) 16000
           eq_refl Hfixed).
Defined.

(** ** Members and values of the enumeration *)

(** X7.  A member is recovered from its value, a value names at most one
    member, and the lookup by value fails exactly outside the values [1]
    and [2]. *)
Theorem end_of_turn_state_value_round_trip :
  (forall s : EndOfTurnState,
      EndOfTurnStateEnum.of_value (EndOfTurnStateEnum.value s) = Some s) /\
  (forall (v : Z) (s : EndOfTurnState),
      EndOfTurnStateEnum.of_value v = Some s <-> EndOfTurnStateEnum.value s = v) /\
  (forall v : Z,
      EndOfTurnStateEnum.of_value v = None <-> v <> 1 /\ v <> 2).
Proof.
  split; [exact of_value_value | split].
  - intros v s. split.
    + unfold EndOfTurnStateEnum.of_value. intros Hfind.
      apply find_some in Hfind. destruct Hfind as [_ Heq].
      now apply Z.eqb_eq in Heq.
    + intros <-. apply of_value_value.
  - intros v. pose proof (of_value_defined v) as Hdef.
    destruct (EndOfTurnStateEnum.of_value v) as [s |].
    + split; [discriminate | ].
      intros [N1 N2]. destruct Hdef as [Hdef _].
      destruct (Hdef ltac:(discriminate)); contradiction.
    + split; [ | reflexivity].
      intros _. split; intros E; apply (proj2 Hdef); auto.
Qed.
